(** * arkade: the docker-registry-ingress app

    A shallow embedding of [cmd/apps/registry_ingress_app.go]: the
    manifest builder [buildRegistryYAML], the two manifest templates, the
    fragment of Go's [text/template] the templates use, and the [RunE]
    closure of the cobra command with its collaborators.

    Go strings are modelled as [string], the [[]byte] result of the
    builder as [list byte]. *)

From Stdlib Require Import Bool Arith ZArith Lia List.
From Stdlib Require Import Strings.Ascii Strings.String Strings.Byte.
Import ListNotations.
Open Scope string_scope.

(** ** Occurrences of one string inside another *)

Module Str.

(** [mem c s]: the character [c] appears in [s]. *)
Fixpoint mem (c : ascii) (s : string) : bool :=
  match s with
  | EmptyString => false
  | String a s' => Ascii.eqb a c || mem c s'
  end.

(** [avoids f p]: no character of [p] satisfies [f]. *)
Fixpoint avoids (f : ascii -> bool) (p : string) : bool :=
  match p with
  | EmptyString => true
  | String a p' => negb (f a) && avoids f p'
  end.

(** [count p s]: the number of positions of [s] at which [p] starts. *)
Fixpoint count (p s : string) : nat :=
  (if String.prefix p s then 1 else 0) +
  match s with
  | EmptyString => 0
  | String _ s' => count p s'
  end.

(** [contains p s]: Go's [strings.Contains s p]. *)
Definition contains (p s : string) : bool := (0 <? count p s)%nat.

(** [p] occurs in [s], as a decomposition of [s]. *)
Definition Substring (p s : string) : Prop :=
  exists pre post, s = pre ++ p ++ post.

(** First and last character tests, used for the text between two
    template actions. *)
Definition startsWith (f : ascii -> bool) (s : string) : bool :=
  match s with
  | EmptyString => false
  | String a _ => f a
  end.

Fixpoint endsWith (f : ascii -> bool) (s : string) : bool :=
  match s with
  | EmptyString => false
  | String a EmptyString => f a
  | String _ s' => endsWith f s'
  end.

(** Leading-space count and line splitting, for the layout checks on the
    templates. *)
Fixpoint indent (s : string) : nat :=
  match s with
  | String a s' => if Ascii.eqb a " "%char then S (indent s') else 0
  | EmptyString => 0
  end.

Fixpoint dropSpaces (s : string) : string :=
  match s with
  | String a s' => if Ascii.eqb a " "%char then dropSpaces s' else s
  | EmptyString => EmptyString
  end.

Fixpoint lines (s : string) : list string :=
  match s with
  | EmptyString => [EmptyString]
  | String a s' =>
      if Ascii.eqb a "010"%char then EmptyString :: lines s'
      else match lines s' with
           | l :: ls => String a l :: ls
           | [] => [String a EmptyString]
           end
  end.

End Str.

(** ** Go values: errors and results *)

(** The [error] values this file can produce or pass on, by producer. *)
Inductive error : Set :=
| errors_New (msg : string)
| fmt_Errorf (msg : string)
| template_ParseError (msg : string)
| template_ExecError (msg : string)
| external_Error (msg : string).

(** A Go result pair [(T, error)] with exactly one side set. *)
Inductive result (A : Type) : Type :=
| Ok (a : A)
| Err (e : error).
Arguments Ok {A} a.
Arguments Err {A} e.

Definition bind {A B : Type} (r : result A) (k : A -> result B) : result B :=
  match r with
  | Ok a => k a
  | Err e => Err e
  end.

Notation "x <- r ;; k" := (bind r (fun x => k))
  (at level 61, r at next level, right associativity).

(** [fmt.Sprintf] for a format with one [%s] verb and one string
    argument. *)
Fixpoint Sprintf (format arg : string) : string :=
  match format with
  | EmptyString => EmptyString
  | String c rest =>
      match rest with
      | String c2 rest2 =>
          if Ascii.eqb c "%"%char && Ascii.eqb c2 "s"%char
          then arg ++ rest2
          else String c (Sprintf rest arg)
      | EmptyString => String c EmptyString
      end
  end.

(** ** The fragment of [text/template] used by the manifests

    Text outside [{{ }}] is copied; an action is a field of the data,
    [{{.Name}}]. Any other action is outside the fragment and is refused
    by [Parse]. *)

Module Template.

Inductive Node : Set :=
| TextNode (text : string)
| FieldNode (ident : string).

Definition isSpace (c : ascii) : bool :=
  Ascii.eqb c " "%char || Ascii.eqb c "009"%char ||
  Ascii.eqb c "013"%char || Ascii.eqb c "010"%char.

Definition isAlphaNumeric (c : ascii) : bool :=
  let n := nat_of_ascii c in
  Ascii.eqb c "_"%char ||
  ((65 <=? n) && (n <=? 90))%nat || ((97 <=? n) && (n <=? 122))%nat ||
  ((48 <=? n) && (n <=? 57))%nat.

Fixpoint trimLeft (s : string) : string :=
  match s with
  | String c s' => if isSpace c then trimLeft s' else s
  | EmptyString => EmptyString
  end.

(** Splits the leading identifier off [s]. *)
Fixpoint scanIdent (s : string) : string * string :=
  match s with
  | String c s' =>
      if isAlphaNumeric c
      then let (i, r) := scanIdent s' in (String c i, r)
      else (EmptyString, s)
  | EmptyString => (EmptyString, EmptyString)
  end.

(** The body of an action, between the delimiters. *)
Definition parseAction (body : string) : result Node :=
  match trimLeft body with
  | String c s' =>
      if Ascii.eqb c "."%char then
        let (ident, r) := scanIdent s' in
        match ident, trimLeft r with
        | String _ _, EmptyString => Ok (FieldNode ident)
        | _, _ => Err (template_ParseError "unsupported action")
        end
      else Err (template_ParseError "unsupported action")
  | EmptyString => Err (template_ParseError "missing value for command")
  end.

Definition addText (c : ascii) (r : result (list Node)) : result (list Node) :=
  ns <- r ;;
  match ns with
  | TextNode t :: ns' => Ok (TextNode (String c t) :: ns')
  | _ => Ok (TextNode (String c EmptyString) :: ns)
  end.

(** The lexer and parser in one pass: [action] is [None] in text and
    [Some body] inside an action whose body so far is [body]. *)
Fixpoint parseFrom (action : option string) (s : string) : result (list Node) :=
  match action, s with
  | None, EmptyString => Ok []
  | None, String c rest =>
      match rest with
      | String c2 rest2 =>
          if Ascii.eqb c "{"%char && Ascii.eqb c2 "{"%char
          then parseFrom (Some EmptyString) rest2
          else addText c (parseFrom None rest)
      | EmptyString => addText c (parseFrom None rest)
      end
  | Some _, EmptyString => Err (template_ParseError "unclosed action")
  | Some body, String c rest =>
      match rest with
      | String c2 rest2 =>
          if Ascii.eqb c "}"%char && Ascii.eqb c2 "}"%char
          then n <- parseAction body ;;
               ns <- parseFrom None rest2 ;;
               Ok (n :: ns)
          else parseFrom (Some (body ++ String c EmptyString)) rest
      | EmptyString => parseFrom (Some (body ++ String c EmptyString)) rest
      end
  end.

(** [template.New(name).Parse(text)]. *)
Definition Parse (name text : string) : result (list Node) :=
  parseFrom None text.

Section Exec.

(** The data a template is executed on, seen through its exported
    string fields. *)
Variable field : string -> option string.

(** [tmpl.Execute(&wr, data)]: [wr] is the buffer written so far. *)
Fixpoint Execute (ns : list Node) (wr : string) : result string :=
  match ns with
  | [] => Ok wr
  | TextNode t :: ns' => Execute ns' (wr ++ t)
  | FieldNode f :: ns' =>
      match field f with
      | Some v => Execute ns' (wr ++ v)
      | None => Err (template_ExecError ("can't evaluate field " ++ f))
      end
  end.

(** What a node prints. *)
Definition value (n : Node) : string :=
  match n with
  | TextNode t => t
  | FieldNode f => match field f with Some v => v | None => EmptyString end
  end.

(** What a template prints when every field resolves. *)
Fixpoint render (ns : list Node) : string :=
  match ns with
  | [] => EmptyString
  | n :: ns' => value n ++ render ns'
  end.

(** The node can be evaluated on the data. *)
Definition resolves (n : Node) : bool :=
  match n with
  | TextNode _ => true
  | FieldNode f => match field f with Some _ => true | None => false end
  end.

(** Occurrences of [p], node by node. *)
Fixpoint countNodes (p : string) (ns : list Node) : nat :=
  match ns with
  | [] => 0
  | n :: ns' => Str.count p (value n) + countNodes p ns'
  end.

End Exec.

(** A template is separated, for a class [sep] of characters, when every
    seam between two of its nodes has a character of the class on one
    side of it, in the template's own text. *)
Definition endsSep (sep : ascii -> bool) (n : Node) : bool :=
  match n with
  | TextNode t => Str.endsWith sep t
  | FieldNode _ => false
  end.

Definition startsSep (sep : ascii -> bool) (ns : list Node) : bool :=
  match ns with
  | [] => true
  | TextNode t :: _ => Str.startsWith sep t
  | FieldNode _ :: _ => false
  end.

Fixpoint separated (sep : ascii -> bool) (ns : list Node) : bool :=
  match ns with
  | [] => true
  | n :: ns' => (endsSep sep n || startsSep sep ns') && separated sep ns'
  end.

End Template.

(** ** The app *)

Record RegInputData : Set := {
  IngressDomain : string;
  CertmanagerEmail : string;
  IngressClass : string;
  Namespace : string;
  NginxMaxBuffer : string;
  IssuerType : string;
  IssuerAPI : string
}.

(** Field access by name, as [text/template] does it by reflection. *)
Definition RegInputData_field (d : RegInputData) (name : string) : option string :=
  if name =? "IngressDomain" then Some (IngressDomain d)
  else if name =? "CertmanagerEmail" then Some (CertmanagerEmail d)
  else if name =? "IngressClass" then Some (IngressClass d)
  else if name =? "Namespace" then Some (Namespace d)
  else if name =? "NginxMaxBuffer" then Some (NginxMaxBuffer d)
  else if name =? "IssuerType" then Some (IssuerType d)
  else if name =? "IssuerAPI" then Some (IssuerAPI d)
  else None.

Definition set_IssuerType (d : RegInputData) (v : string) : RegInputData :=
  {| IngressDomain := IngressDomain d; CertmanagerEmail := CertmanagerEmail d;
     IngressClass := IngressClass d; Namespace := Namespace d;
     NginxMaxBuffer := NginxMaxBuffer d; IssuerType := v;
     IssuerAPI := IssuerAPI d |}.

Definition set_IssuerAPI (d : RegInputData) (v : string) : RegInputData :=
  {| IngressDomain := IngressDomain d; CertmanagerEmail := CertmanagerEmail d;
     IngressClass := IngressClass d; Namespace := Namespace d;
     NginxMaxBuffer := NginxMaxBuffer d; IssuerType := IssuerType d;
     IssuerAPI := v |}.

Definition set_NginxMaxBuffer (d : RegInputData) (v : string) : RegInputData :=
  {| IngressDomain := IngressDomain d; CertmanagerEmail := CertmanagerEmail d;
     IngressClass := IngressClass d; Namespace := Namespace d;
     NginxMaxBuffer := v; IssuerType := IssuerType d;
     IssuerAPI := IssuerAPI d |}.

(** Ingress in extensions/v1beta1 are removed in k8s 1.22+, July 2021 *)
Definition registryIngressExtensionsYamlTemplate : string := "
apiVersion: extensions/v1beta1
kind: Ingress
metadata:
  name: docker-registry
  namespace: {{.Namespace}}
  annotations:
    cert-manager.io/issuer: {{.IssuerType}}
    kubernetes.io/ingress.class: {{.IngressClass}}
{{.NginxMaxBuffer}}
spec:
  rules:
  - host: {{.IngressDomain}}
    http:
      paths:
      - backend:
          serviceName: docker-registry
          servicePort: 5000
        path: /
  tls:
  - hosts:
    - {{.IngressDomain}}
    secretName: docker-registry
---
apiVersion: cert-manager.io/v1
kind: Issuer
metadata:
  name: {{.IssuerType}}
  namespace: {{.Namespace}}
spec:
  acme:
    email: {{.CertmanagerEmail}}
    server: {{.IssuerAPI}}
    privateKeySecretRef:
      name: {{.IssuerType}}
    solvers:
    - http01:
        ingress:
          class: {{.IngressClass}}".

(** Ingress in networking.k8s.io/v1 was added in k8s 1.19+;
    this includes the pathType change added in 1.18 *)
Definition registryIngressNetworkingYamlTemplate : string := "
apiVersion: networking.k8s.io/v1
kind: Ingress
metadata:
  name: docker-registry
  namespace: {{.Namespace}}
  annotations:
    cert-manager.io/issuer: {{.IssuerType}}
    kubernetes.io/ingress.class: {{.IngressClass}}
{{.NginxMaxBuffer}}
spec:
  rules:
  - host: {{.IngressDomain}}
    http:
      paths:
      - path: /
        pathType: ImplementationSpecific
        backend:
          service
            name: docker-registry
            port:
              number: 5000
  tls:
  - hosts:
    - {{.IngressDomain}}
    secretName: docker-registry
---
apiVersion: cert-manager.io/v1
kind: Issuer
metadata:
  name: {{.IssuerType}}
  namespace: {{.Namespace}}
spec:
  acme:
    email: {{.CertmanagerEmail}}
    server: {{.IssuerAPI}}
    privateKeySecretRef:
      name: {{.IssuerType}}
    solvers:
    - http01:
        ingress:
          class: {{.IngressClass}}".

Definition RegistryIngressInfoMsg : string := "# You will need to ensure that your domain points to your cluster and is
# accessible through ports 80 and 443.
#
# This is used to validate your ownership of this domain by LetsEncrypt
# and then you can use https with your installation.

# Ingress to your domain has been installed for the Registry
# to see the ingress record run
kubectl get -n <installed-namespace> ingress docker-registry

# Check the cert-manager logs with:
kubectl logs -n cert-manager deploy/cert-manager

# A cert-manager Issuer has been installed into the provided
# namespace - to see the resource run
kubectl describe -n <installed-namespace> Issuer letsencrypt-prod-registry

# To check the status of your certificate you can run
kubectl describe -n <installed-namespace> Certificate docker-registry

# It may take a while to be issued by LetsEncrypt, in the meantime a
# self-signed cert will be installed".

(** The data [buildRegistryYAML] executes the template on. *)
Definition inputDataOf (domain email ingressClass namespace maxSize : string)
    (staging : bool) : RegInputData :=
  let inputData :=
    {| IngressDomain := domain;
       CertmanagerEmail := email;
       IngressClass := ingressClass;
       Namespace := namespace;
       IssuerType := "letsencrypt-prod-issuer";
       IssuerAPI := "https://acme-v02.api.letsencrypt.org/directory";
       NginxMaxBuffer := "" |} in
  let inputData :=
    if staging then
      set_IssuerAPI
        (set_IssuerType inputData "letsencrypt-staging-issuer")
        "https://acme-staging-v02.api.letsencrypt.org/directory"
    else inputData in
  if ingressClass =? "nginx" then
    set_NginxMaxBuffer inputData
      (Sprintf "    nginx.ingress.kubernetes.io/proxy-body-size: %s" maxSize)
  else inputData.

Definition buildRegistryYAML
    (domain email ingressClass namespace maxSize : string)
    (staging hasNetworking : bool) : result (list byte) :=
  let tmplString := registryIngressExtensionsYamlTemplate in
  tmpl <- Template.Parse "yaml" tmplString ;;
  let inputData :=
    inputDataOf domain email ingressClass namespace maxSize staging in
  tpl <- Template.Execute (RegInputData_field inputData) tmpl "" ;;
  Ok (list_byte_of_string tpl).

(** What the output holds: [p] occurs in the bytes [out]; and how often. *)
Definition Contains (p : string) (out : list byte) : bool :=
  Str.contains p (string_of_list_byte out).

Definition Occurrences (p : string) (out : list byte) : nat :=
  Str.count p (string_of_list_byte out).

(** A line feed, for patterns that run over several lines. *)
Definition LF : string := String "010"%char "".

(** ** The command

    [RunE] of [MakeInstallRegistryIngress], over its collaborators: the
    functions of other packages that it calls, each a function of its
    arguments. The run returns the [error] of [RunE] ([None] for [nil])
    and the calls made, in order. *)

Record ExecResult : Set := {
  ExitCode : Z;
  Stdout : string;
  Stderr : string
}.

Record Collaborators : Type := {
  (** [config.SetKubeconfig] *)
  SetKubeconfig : string -> option error;
  (** [k8s.GetCapabilities], a [map[string]bool] as its list of entries *)
  GetCapabilities : result (list (string * bool));
  writeTempFile : list byte -> string -> result string;
  (** [k8s.KubectlTask] *)
  KubectlTask : list string -> result ExecResult;
  (** [pkg.ThanksForUsing] *)
  ThanksForUsing : string
}.

(** The flags of the command, as [command.Flags()] gives them. *)
Record Flags : Set := {
  flag_kubeconfig : string;
  flag_domain : string;
  flag_email : string;
  flag_ingress_class : string;
  flag_max_size : string;
  flag_namespace : string;
  flag_staging : bool
}.

Inductive Call : Type :=
| Call_SetKubeconfig (path : string)
| Call_GetCapabilities
| Call_buildRegistryYAML
    (domain email ingressClass namespace maxSize : string)
    (staging hasNetworking : bool)
| Call_writeTempFile (input : list byte) (fileLocation : string)
| Call_KubectlTask (args : list string)
| Call_log_Print (msg : string)
| Call_fmt_Println (msg : string).

(** Indexing a [map[string]bool]: the zero value when the key is absent. *)
Fixpoint mapIndex (m : list (string * bool)) (key : string) : bool :=
  match m with
  | [] => false
  | (k, v) :: m' => if k =? key then v else mapIndex m' key
  end.

(** The text that [log.Print(err)] prints. *)
Definition errorText (e : error) : string :=
  match e with
  | errors_New msg | fmt_Errorf msg | template_ParseError msg
  | template_ExecError msg | external_Error msg => msg
  end.

(** A run so far: the calls made, and the returned error once the
    closure has returned. *)
Definition Run : Type := list Call -> option error * list Call.

Definition call (c : Call) (k : Run) : Run := fun tr => k (tr ++ [c])%list.

Definition returns (e : option error) : Run := fun tr => (e, tr).

Notation "'do' c ';;' k" := (call c k)
  (at level 61, c at next level, right associativity).

Definition RegistryIngressInstallMsg (c : Collaborators) : string :=
  "=======================================================================
= Docker Registry Ingress and cert-manager Issuer have been installed =
=======================================================================" ++
  LF ++ LF ++ RegistryIngressInfoMsg ++ LF ++ LF ++ ThanksForUsing c.

Definition RunE (c : Collaborators) (flags : Flags) : Run :=
  let kubeConfigPath := flag_kubeconfig flags in
  do Call_SetKubeconfig kubeConfigPath ;;
  match SetKubeconfig c kubeConfigPath with
  | Some err => returns (Some err)
  | None =>
  let email := flag_email flags in
  let domain := flag_domain flags in
  let ingressClass := flag_ingress_class flags in
  let namespace := flag_namespace flags in
  let maxSize := flag_max_size flags in
  if (email =? "") || (domain =? "") then
    returns (Some (errors_New
      "both --email and --domain flags should be set and not empty, please set these values"))
  else if ingressClass =? "" then
    returns (Some (errors_New "--ingress-class must be set"))
  else
  do Call_GetCapabilities ;;
  match GetCapabilities c with
  | Err err => returns (Some err)
  | Ok caps =>
  let hasNetworking := mapIndex caps "networking.k8s.io/v1" in
  let staging := flag_staging flags in
  do Call_buildRegistryYAML domain email ingressClass namespace maxSize
       staging hasNetworking ;;
  match buildRegistryYAML domain email ingressClass namespace maxSize
          staging hasNetworking with
  | Err templateErr =>
      do Call_log_Print
           "Unable to install the application. Could not build the templated yaml file for the resources" ;;
      returns (Some templateErr)
  | Ok yamlBytes =>
  do Call_writeTempFile yamlBytes "temp_registry_ingress.yaml" ;;
  match writeTempFile c yamlBytes "temp_registry_ingress.yaml" with
  | Err tempFileErr =>
      do Call_log_Print
           "Unable to save generated yaml file into the temporary directory" ;;
      returns (Some tempFileErr)
  | Ok tempFile =>
  do Call_KubectlTask ["apply"; "-f"; tempFile] ;;
  match KubectlTask c ["apply"; "-f"; tempFile] with
  | Err err =>
      do Call_log_Print (errorText err) ;;
      returns (Some err)
  | Ok res =>
  if negb (ExitCode res =? 0)%Z then
    returns (Some (fmt_Errorf
      ("Unable to apply YAML files." ++ LF ++
       "Have you got the Registry running and cert-manager 0.11.0 or higher installed? "
       ++ Stderr res)))
  else
  do Call_fmt_Println (RegistryIngressInstallMsg c) ;;
  returns None
  end end end end end.

(** The two errors of the flag checks. *)
Definition isValidationError (e : error) : bool :=
  match e with
  | errors_New msg =>
      (msg =? "both --email and --domain flags should be set and not empty, please set these values")
      || (msg =? "--ingress-class must be set")
  | _ => false
  end.

(** Collaborators of a run in which every stage succeeds, and the same
    with a [SetKubeconfig] that fails. *)
Definition workingCollaborators : Collaborators :=
  {| SetKubeconfig := fun _ => None;
     GetCapabilities := Ok [("networking.k8s.io/v1", true)];
     writeTempFile := fun _ fileLocation => Ok ("/tmp/" ++ fileLocation);
     KubectlTask :=
       fun _ => Ok {| ExitCode := 0; Stdout := ""; Stderr := "" |};
     ThanksForUsing := "Thanks for using arkade!" |}.

Definition failingKubeconfig : Collaborators :=
  {| SetKubeconfig := fun _ => Some (external_Error "setenv: invalid argument");
     GetCapabilities := GetCapabilities workingCollaborators;
     writeTempFile := writeTempFile workingCollaborators;
     KubectlTask := KubectlTask workingCollaborators;
     ThanksForUsing := ThanksForUsing workingCollaborators |}.

(** The flags of [arkade install registry-ingress --domain
    registry.example.com], with no [--email]. *)
Definition flagsWithoutEmail : Flags :=
  {| flag_kubeconfig := "";
     flag_domain := "registry.example.com";
     flag_email := "";
     flag_ingress_class := "nginx";
     flag_max_size := "200m";
     flag_namespace := "default";
     flag_staging := false |}.

(** ** The parsed template and the manifest *)

(** The parsed form of the template that [buildRegistryYAML] parses. *)
Definition extensionsNodes : list Template.Node :=
  Eval vm_compute in
    match Template.Parse "yaml" registryIngressExtensionsYamlTemplate with
    | Ok ns => ns
    | Err _ => []
    end.

(** The text of the manifest, before it is turned into bytes. *)
Definition manifest (domain email ingressClass namespace maxSize : string)
    (staging : bool) : string :=
  Template.render
    (RegInputData_field
       (inputDataOf domain email ingressClass namespace maxSize staging))
    extensionsNodes.

(** ** Where a pattern occurs in the manifest *)

(** Occurrences of [p] in the template's own text. *)
Fixpoint countText (p : string) (ns : list Template.Node) : nat :=
  match ns with
  | [] => 0
  | Template.TextNode t :: ns' => Str.count p t + countText p ns'
  | Template.FieldNode _ :: ns' => countText p ns'
  end.

Definition isDomainNode (n : Template.Node) : bool :=
  match n with
  | Template.FieldNode f => f =? "IngressDomain"
  | Template.TextNode _ => false
  end.

(** Occurrences of the domain in what the manifest holds besides the two
    printed domains: the template's text and the other printed fields. *)
Definition elsewhere (domain email ingressClass namespace maxSize : string)
    (staging : bool) : nat :=
  Template.countNodes
    (RegInputData_field
       (inputDataOf domain email ingressClass namespace maxSize staging))
    domain
    (filter (fun n => negb (isDomainNode n)) extensionsNodes).

(** ** The layout of the templates *)

(** A line that is the bare keyword [service], with no colon. *)
Definition isBareService (l : string) : bool :=
  Str.dropSpaces l =? "service".

(** The lines that open a nested block without a colon: a non-blank line
    with no colon in it, followed by a more deeply indented line. *)
Fixpoint colonlessOpeners (ls : list string) : list string :=
  match ls with
  | [] => []
  | l1 :: rest =>
      match rest with
      | l2 :: _ =>
          if negb (Str.mem ":"%char l1) && negb (Str.dropSpaces l1 =? "")
             && (Str.indent l1 <? Str.indent l2)%nat
          then l1 :: colonlessOpeners rest
          else colonlessOpeners rest
      | [] => []
      end
  end.

(** ** The command as a whole *)

(** The stage of a call: the five stages of [RunE] in the order of the
    source, then the printing calls. *)
Definition stage (c : Call) : nat :=
  match c with
  | Call_SetKubeconfig _ => 0
  | Call_GetCapabilities => 1
  | Call_buildRegistryYAML _ _ _ _ _ _ _ => 2
  | Call_writeTempFile _ _ => 3
  | Call_KubectlTask _ => 4
  | Call_log_Print _ => 5
  | Call_fmt_Println _ => 5
  end.

(** The bytes of the manifest for the flags of a run. *)
Definition manifestOf (flags : Flags) : list byte :=
  list_byte_of_string
    (manifest (flag_domain flags) (flag_email flags)
       (flag_ingress_class flags) (flag_namespace flags)
       (flag_max_size flags) (flag_staging flags)).

(** The error of [RunE] for an apply that exits with a non-zero code. *)
Definition applyFailed (res : ExecResult) : error :=
  fmt_Errorf
    ("Unable to apply YAML files." ++ LF ++
     "Have you got the Registry running and cert-manager 0.11.0 or higher installed? "
     ++ Stderr res).

(** The flags of a command line that sets [--domain] and [--email] only:
    the other flags of [MakeInstallRegistryIngress] have the default of
    their registration; [--kubeconfig] is inherited. *)
Definition flagsOf (kubeconfig domain email : string) : Flags :=
  {| flag_kubeconfig := kubeconfig;
     flag_domain := domain;
     flag_email := email;
     flag_ingress_class := "nginx";
     flag_max_size := "200m";
     flag_namespace := "default";
     flag_staging := false |}.

(** The same collaborators on a cluster with other capabilities. *)
Definition withCapabilities (c : Collaborators)
    (caps : list (string * bool)) : Collaborators :=
  {| SetKubeconfig := SetKubeconfig c;
     GetCapabilities := Ok caps;
     writeTempFile := writeTempFile c;
     KubectlTask := KubectlTask c;
     ThanksForUsing := ThanksForUsing c |}.

(** Collaborators whose apply exits with code 1. *)
Definition failingApply : Collaborators :=
  {| SetKubeconfig := SetKubeconfig workingCollaborators;
     GetCapabilities := GetCapabilities workingCollaborators;
     writeTempFile := writeTempFile workingCollaborators;
     KubectlTask :=
       fun _ => Ok {| ExitCode := 1; Stdout := "";
                      Stderr := "error: no matches for kind Issuer" |};
     ThanksForUsing := ThanksForUsing workingCollaborators |}.

(** The parsed form of the networking.k8s.io/v1 template. *)
Definition networkingNodes : list Template.Node :=
  Eval vm_compute in
    match Template.Parse "yaml" registryIngressNetworkingYamlTemplate with
    | Ok ns => ns
    | Err _ => []
    end.

(** The names of the fields a template prints, in order. *)
Fixpoint fieldsOf (ns : list Template.Node) : list string :=
  match ns with
  | [] => []
  | Template.FieldNode f :: ns' => f :: fieldsOf ns'
  | Template.TextNode _ :: ns' => fieldsOf ns'
  end.

(** ** Facts about occurrences *)

Module StrFacts.
Import Str.

Lemma app_nil_r (s : string) : s ++ "" = s.
Proof. induction s as [|a s IH]; simpl; [reflexivity | now rewrite IH]. Qed.

Lemma app_assoc (a b c : string) : (a ++ b) ++ c = a ++ (b ++ c).
Proof. induction a as [|x a IH]; simpl; [reflexivity | now rewrite IH]. Qed.

Lemma length_app (a b : string) :
  String.length (a ++ b) = String.length a + String.length b.
Proof. induction a as [|x a IH]; simpl; [reflexivity | now rewrite IH]. Qed.

Lemma prefix_nil (s : string) : String.prefix "" s = true.
Proof. destruct s; reflexivity. Qed.

Lemma prefix_cons (a b : ascii) (p s : string) :
  String.prefix (String a p) (String b s) =
  Ascii.eqb a b && String.prefix p s.
Proof.
  simpl. destruct (ascii_dec a b) as [->|Hne].
  - now rewrite Ascii.eqb_refl.
  - apply Ascii.eqb_neq in Hne. now rewrite Hne.
Qed.

Lemma prefix_app (p s : string) : String.prefix p (p ++ s) = true.
Proof.
  induction p as [|a p IH]; [apply prefix_nil|].
  change (String a p ++ s) with (String a (p ++ s)).
  now rewrite prefix_cons, Ascii.eqb_refl, IH.
Qed.

Lemma prefix_split (p s : string) :
  String.prefix p s = true -> exists post, s = p ++ post.
Proof.
  revert s. induction p as [|a p IH]; intros s H.
  - now exists s.
  - destruct s as [|b s]; [discriminate|].
    rewrite prefix_cons in H. apply andb_prop in H as [Hab Hp].
    apply Ascii.eqb_eq in Hab as ->. destruct (IH _ Hp) as [post ->].
    now exists post.
Qed.

Lemma prefix_length (p s : string) :
  String.prefix p s = true -> String.length p <= String.length s.
Proof.
  intros H. destruct (prefix_split _ _ H) as [post ->].
  rewrite length_app. lia.
Qed.

(** A pattern without the character [c] cannot start before [c] and run
    across it. *)
Lemma prefix_across (c : ascii) (p x b : string) :
  mem c p = false ->
  String.prefix p (x ++ String c b) = String.prefix p x.
Proof.
  revert x. induction p as [|a p IH]; intros x Hc.
  - now rewrite !prefix_nil.
  - simpl in Hc. apply orb_false_elim in Hc as [Hac Hp].
    destruct x as [|y x].
    + change ("" ++ String c b) with (String c b).
      now rewrite prefix_cons, Hac.
    + change (String y x ++ String c b) with (String y (x ++ String c b)).
      now rewrite !prefix_cons, IH.
Qed.

Lemma count_empty (p : string) :
  count p "" = if String.prefix p "" then 1 else 0.
Proof. simpl. lia. Qed.

Lemma count_cons (p : string) (a : ascii) (s : string) :
  count p (String a s) =
  (if String.prefix p (String a s) then 1 else 0) + count p s.
Proof. reflexivity. Qed.

Lemma count_across (c : ascii) (p a b : string) :
  mem c p = false ->
  count p (a ++ String c b) = count p a + count p b.
Proof.
  intros Hc. induction a as [|y a IH].
  - change ("" ++ String c b) with (String c b).
    rewrite count_cons, count_empty.
    pose proof (prefix_across c p "" b Hc) as E. simpl append in E.
    rewrite E. reflexivity.
  - change (String y a ++ String c b) with (String y (a ++ String c b)).
    rewrite !count_cons, IH.
    pose proof (prefix_across c p (String y a) b Hc) as E.
    change (String y a ++ String c b) with (String y (a ++ String c b)) in E.
    rewrite E. lia.
Qed.

Lemma count_short (p s : string) :
  String.length s < String.length p -> count p s = 0.
Proof.
  induction s as [|a s IH]; intros Hlen.
  - destruct p; [simpl in Hlen; lia | reflexivity].
  - unfold count; fold count.
    destruct (String.prefix p (String a s)) eqn:Hp.
    + apply prefix_length in Hp. lia.
    + rewrite IH; [reflexivity | simpl in Hlen; lia].
Qed.

Lemma count_nil (p : string) : p <> "" -> count p "" = 0.
Proof. intros Hp. destruct p; [congruence | reflexivity]. Qed.

Lemma count_self (p : string) : p <> "" -> count p p = 1.
Proof.
  intros Hp. destruct p as [|a p]; [congruence|].
  unfold count; fold count.
  rewrite <- (app_nil_r (String a p)) at 2. rewrite prefix_app.
  rewrite count_short; [reflexivity | simpl; lia].
Qed.

Lemma count_app_ge (p a b : string) : count p b <= count p (a ++ b).
Proof.
  induction a as [|y a IH]; [apply Nat.le_refl|].
  change (String y a ++ b) with (String y (a ++ b)).
  unfold count at 2; fold count. lia.
Qed.

Lemma contains_intro (p pre post : string) :
  contains p (pre ++ p ++ post) = true.
Proof.
  unfold contains. apply Nat.ltb_lt.
  apply Nat.lt_le_trans with (count p (p ++ post)); [|apply count_app_ge].
  destruct (p ++ post) eqn:E; unfold count; fold count.
  - destruct p; [simpl; lia | discriminate].
  - rewrite <- E, prefix_app. lia.
Qed.

Lemma contains_Substring (p s : string) :
  contains p s = true <-> Substring p s.
Proof.
  split.
  - unfold contains. intros H. apply Nat.ltb_lt in H.
    induction s as [|a s IH].
    + unfold count in H. destruct (String.prefix p "") eqn:Hp; [|simpl in H; lia].
      destruct (prefix_split _ _ Hp) as [post E]. now exists "", post.
    + unfold count in H; fold count in H.
      destruct (String.prefix p (String a s)) eqn:Hp.
      * destruct (prefix_split _ _ Hp) as [post E]. now exists "", post.
      * destruct IH as (pre & post & ->); [simpl in H; lia|].
        now exists (String a pre), post.
  - intros (pre & post & ->). apply contains_intro.
Qed.

Lemma contains_false (p s : string) : contains p s = false <-> count p s = 0.
Proof.
  unfold contains. rewrite Nat.ltb_ge. lia.
Qed.

Lemma avoids_mem (f : ascii -> bool) (p : string) (c : ascii) :
  avoids f p = true -> f c = true -> mem c p = false.
Proof.
  induction p as [|a p IH]; intros Hav Hc; [reflexivity|].
  simpl in *. apply andb_prop in Hav as [Ha Hp].
  rewrite (IH Hp Hc), orb_false_r.
  destruct (Ascii.eqb_spec a c) as [->|]; [|reflexivity].
  now rewrite Hc in Ha.
Qed.

Lemma startsWith_split (f : ascii -> bool) (s : string) :
  startsWith f s = true -> exists c s', s = String c s' /\ f c = true.
Proof. destruct s as [|c s']; [discriminate|]. intros H. now exists c, s'. Qed.

Lemma endsWith_split (f : ascii -> bool) (s : string) :
  endsWith f s = true -> exists c s', s = s' ++ String c "" /\ f c = true.
Proof.
  induction s as [|a s IH]; [discriminate|].
  destruct s as [|b s].
  - intros H. now exists a, "".
  - intros H. destruct (IH H) as (c & s' & E & Hc).
    exists c, (String a s'). rewrite E. now split.
Qed.

(** Occurrences add up over a concatenation whose seam is guarded by a
    character that the pattern does not have. *)
Lemma count_app_guarded (f : ascii -> bool) (p a b : string) :
  p <> "" -> avoids f p = true ->
  endsWith f a = true \/ startsWith f b = true \/ b = "" ->
  count p (a ++ b) = count p a + count p b.
Proof.
  intros Hne Hav [Ha | [Hb | ->]].
  - destruct (endsWith_split _ _ Ha) as (c & a' & -> & Hc).
    pose proof (avoids_mem _ _ _ Hav Hc) as Hm.
    rewrite app_assoc. change (String c "" ++ b) with (String c b).
    rewrite !(count_across c p) by exact Hm.
    rewrite (count_nil p Hne). lia.
  - destruct (startsWith_split _ _ Hb) as (c & b' & -> & Hc).
    pose proof (avoids_mem _ _ _ Hav Hc) as Hm.
    rewrite (count_across c p a b' Hm).
    rewrite (count_across c p "" b' Hm : count p (String c b') = _).
    rewrite (count_nil p Hne). lia.
  - rewrite app_nil_r, (count_nil p Hne). lia.
Qed.

End StrFacts.

(** ** Facts about templates in general *)

Module TemplateFacts.
Import Template.

Section Rendering.

Variable field : string -> option string.

Lemma Execute_render (ns : list Node) (wr : string) :
  forallb (resolves field) ns = true ->
  Execute field ns wr = Ok (wr ++ render field ns).
Proof.
  revert wr. induction ns as [|n ns IH]; intros wr Hres.
  - simpl. now rewrite StrFacts.app_nil_r.
  - simpl in Hres. apply andb_prop in Hres as [Hn Hns].
    destruct n as [t|f]; simpl.
    + now rewrite IH, StrFacts.app_assoc.
    + simpl in Hn. destruct (field f) as [v|]; [|discriminate].
      now rewrite IH, StrFacts.app_assoc.
Qed.

Lemma render_app (ns1 ns2 : list Node) :
  render field (ns1 ++ ns2) = render field ns1 ++ render field ns2.
Proof.
  induction ns1 as [|n ns1 IH]; [reflexivity|].
  simpl. now rewrite IH, StrFacts.app_assoc.
Qed.

(** Any run of consecutive nodes prints a piece of the output. *)
Lemma render_segment (i k : nat) (ns : list Node) :
  Str.Substring (render field (firstn k (skipn i ns))) (render field ns).
Proof.
  exists (render field (firstn i ns)),
         (render field (skipn k (skipn i ns))).
  rewrite <- !render_app, firstn_skipn, firstn_skipn. reflexivity.
Qed.

Lemma render_value (n : Node) (ns : list Node) :
  In n ns -> Str.Substring (value field n) (render field ns).
Proof.
  intros Hin. apply in_split in Hin as (l1 & l2 & ->).
  exists (render field l1), (render field l2).
  now rewrite render_app.
Qed.

Lemma startsSep_render (sep : ascii -> bool) (ns : list Node) :
  startsSep sep ns = true ->
  Str.startsWith sep (render field ns) = true \/ render field ns = "".
Proof.
  destruct ns as [|[t|f] ns]; simpl; intros H.
  - now right.
  - left. destruct t as [|c t]; [discriminate | exact H].
  - discriminate.
Qed.

(** In a separated template a pattern without separator characters
    cannot straddle two nodes: its occurrences in the output are those
    inside the nodes. *)
Theorem count_render (sep : ascii -> bool) (p : string) (ns : list Node) :
  p <> "" -> Str.avoids sep p = true -> separated sep ns = true ->
  Str.count p (render field ns) = countNodes field p ns.
Proof.
  intros Hne Hav. induction ns as [|n ns IH]; intros Hsep.
  - simpl render. simpl countNodes. now apply StrFacts.count_nil.
  - simpl in Hsep. apply andb_prop in Hsep as [Hseam Hrest].
    simpl render. simpl countNodes.
    rewrite (StrFacts.count_app_guarded sep), IH; auto.
    apply orb_prop in Hseam as [Hend | Hstart].
    + left. destruct n as [t|f]; [exact Hend | discriminate].
    + right. now apply startsSep_render.
Qed.

End Rendering.

Lemma Substring_trans (a b c : string) :
  Str.Substring a b -> Str.Substring b c -> Str.Substring a c.
Proof.
  intros (p1 & q1 & ->) (p2 & q2 & ->).
  exists (p2 ++ p1), (q1 ++ q2). now rewrite !StrFacts.app_assoc.
Qed.

End TemplateFacts.

(** ** The manifest that [buildRegistryYAML] builds *)

Lemma Parse_extensions :
  Template.Parse "yaml" registryIngressExtensionsYamlTemplate =
  Ok extensionsNodes.
Proof. vm_compute. reflexivity. Qed.

Lemma extensions_resolve (d : RegInputData) :
  forallb (Template.resolves (RegInputData_field d)) extensionsNodes = true.
Proof. vm_compute. reflexivity. Qed.

Lemma extensions_separated :
  Template.separated Template.isSpace extensionsNodes = true.
Proof. vm_compute. reflexivity. Qed.

(** The builder is total: it parses, executes and returns the manifest. *)
Lemma buildRegistryYAML_manifest
    (domain email ingressClass namespace maxSize : string)
    (staging hasNetworking : bool) :
  buildRegistryYAML domain email ingressClass namespace maxSize
    staging hasNetworking =
  Ok (list_byte_of_string
        (manifest domain email ingressClass namespace maxSize staging)).
Proof.
  unfold buildRegistryYAML. cbv zeta. rewrite Parse_extensions.
  unfold bind at 1.
  rewrite TemplateFacts.Execute_render by apply extensions_resolve.
  reflexivity.
Qed.

Lemma Contains_manifest (p : string)
    (domain email ingressClass namespace maxSize : string) (staging : bool) :
  Contains p
    (list_byte_of_string
       (manifest domain email ingressClass namespace maxSize staging)) =
  Str.contains p (manifest domain email ingressClass namespace maxSize staging).
Proof. unfold Contains. now rewrite string_of_list_byte_of_string. Qed.

Lemma Sprintf_proxy_body_size (maxSize : string) :
  Sprintf "    nginx.ingress.kubernetes.io/proxy-body-size: %s" maxSize =
  "    nginx.ingress.kubernetes.io/proxy-body-size: " ++ maxSize.
Proof. cbn. now rewrite StrFacts.app_nil_r. Qed.

(** The fields of the data, by case of the two tests of the builder. *)
Lemma inputDataOf_fields
    (domain email ingressClass namespace maxSize : string) (staging : bool) :
  let d := inputDataOf domain email ingressClass namespace maxSize staging in
  IngressDomain d = domain /\ CertmanagerEmail d = email /\
  IngressClass d = ingressClass /\ Namespace d = namespace /\
  IssuerType d =
    (if staging then "letsencrypt-staging-issuer"
     else "letsencrypt-prod-issuer") /\
  IssuerAPI d =
    (if staging then "https://acme-staging-v02.api.letsencrypt.org/directory"
     else "https://acme-v02.api.letsencrypt.org/directory") /\
  NginxMaxBuffer d =
    (if ingressClass =? "nginx"
     then "    nginx.ingress.kubernetes.io/proxy-body-size: " ++ maxSize
     else "").
Proof.
  unfold inputDataOf. rewrite Sprintf_proxy_body_size.
  destruct staging; destruct (ingressClass =? "nginx"); cbn;
    repeat split; reflexivity.
Qed.

Lemma manifest_segment (i k : nat)
    (domain email ingressClass namespace maxSize : string) (staging : bool) :
  Str.Substring
    (Template.render
       (RegInputData_field
          (inputDataOf domain email ingressClass namespace maxSize staging))
       (firstn k (skipn i extensionsNodes)))
    (manifest domain email ingressClass namespace maxSize staging).
Proof. apply TemplateFacts.render_segment. Qed.

Lemma manifest_value (n : Template.Node)
    (domain email ingressClass namespace maxSize : string) (staging : bool) :
  In n extensionsNodes ->
  Str.Substring
    (Template.value
       (RegInputData_field
          (inputDataOf domain email ingressClass namespace maxSize staging))
       n)
    (manifest domain email ingressClass namespace maxSize staging).
Proof. apply TemplateFacts.render_value. Qed.


(** ** The builder: capability flag, totality, max-size *)

(** C1, evaluated at the example of the specification with
    [hasNetworking = true]: the builder returns the extensions/v1beta1
    manifest; the networking.k8s.io/v1 API group and [pathType] are not
    in it. *)
Example buildRegistryYAML_hasNetworking_true_renders_extensions :
  exists out,
    buildRegistryYAML "registry.example.com" "a@b.com" "nginx" "default"
      "200m" false true = Ok out /\
    Contains "apiVersion: extensions/v1beta1" out = true /\
    Contains "networking.k8s.io/v1" out = false /\
    Contains "pathType" out = false.
Proof. eexists. split; [reflexivity|]. vm_compute. auto. Qed.

(** C4: for every non-empty domain and email, and any other field,
    [buildRegistryYAML] returns a byte sequence and no error. *)
Theorem buildRegistryYAML_returns_bytes
    (domain email ingressClass namespace maxSize : string)
    (staging hasNetworking : bool) :
  domain <> "" -> email <> "" ->
  exists out,
    buildRegistryYAML domain email ingressClass namespace maxSize
      staging hasNetworking = Ok out.
Proof. intros _ _. rewrite buildRegistryYAML_manifest. now eexists. Qed.

Lemma buildRegistryYAML_returns_bytes_witness :
  "registry.example.com" <> "" /\ "a@b.com" <> "" /\
  exists out,
    buildRegistryYAML "registry.example.com" "a@b.com" "nginx" "default"
      "200m" false true = Ok out.
Proof.
  split; [discriminate|]. split; [discriminate|].
  apply buildRegistryYAML_returns_bytes; discriminate.
Defined.

(** C8: the capability flag has no influence: for every configuration
    the builder returns the same result for [hasNetworking = true] and
    [hasNetworking = false]. *)
Theorem buildRegistryYAML_ignores_hasNetworking
    (domain email ingressClass namespace maxSize : string) (staging : bool) :
  buildRegistryYAML domain email ingressClass namespace maxSize staging true =
  buildRegistryYAML domain email ingressClass namespace maxSize staging false.
Proof. reflexivity. Qed.

(** C9: when the ingress class is not "nginx", two calls that differ
    only in the max-size string return the same bytes. *)
Theorem buildRegistryYAML_maxSize_unused
    (domain email ingressClass namespace maxSize maxSize' : string)
    (staging hasNetworking : bool) :
  ingressClass <> "nginx" ->
  buildRegistryYAML domain email ingressClass namespace maxSize
    staging hasNetworking =
  buildRegistryYAML domain email ingressClass namespace maxSize'
    staging hasNetworking.
Proof.
  intros Hc. apply String.eqb_neq in Hc.
  unfold buildRegistryYAML, inputDataOf. now rewrite Hc.
Qed.

Lemma buildRegistryYAML_maxSize_unused_witness :
  "traefik" <> "nginx" /\
  buildRegistryYAML "registry.example.com" "a@b.com" "traefik" "default"
    "200m" false false =
  buildRegistryYAML "registry.example.com" "a@b.com" "traefik" "default"
    "1g" false false.
Proof.
  split; [discriminate|].
  apply buildRegistryYAML_maxSize_unused. discriminate.
Defined.

(** C10: when the ingress class is not "nginx", the line of the
    annotation placeholder is still there, empty, between the
    ingress.class annotation line and the [spec:] line. *)
Theorem buildRegistryYAML_empty_placeholder_line
    (domain email ingressClass namespace maxSize : string)
    (staging hasNetworking : bool) :
  ingressClass <> "nginx" ->
  exists out,
    buildRegistryYAML domain email ingressClass namespace maxSize
      staging hasNetworking = Ok out /\
    Contains
      ("    kubernetes.io/ingress.class: " ++ ingressClass ++ LF ++
       LF ++ "spec:" ++ LF) out = true.
Proof.
  intros Hc. apply String.eqb_neq in Hc.
  rewrite buildRegistryYAML_manifest. eexists. split; [reflexivity|].
  rewrite Contains_manifest. apply StrFacts.contains_Substring.
  eapply TemplateFacts.Substring_trans; [|apply (manifest_segment 4 5)].
  destruct (inputDataOf_fields domain email ingressClass namespace maxSize
              staging) as (_ & _ & Hcl & _ & _ & _ & Hbuf).
  set (data := inputDataOf _ _ _ _ _ _) in *.
  cbn. rewrite Hcl, Hbuf, Hc.
  exists LF, ("  rules:" ++ LF ++ "  - host: ").
  unfold LF. cbn. rewrite !StrFacts.app_assoc. reflexivity.
Qed.

Lemma buildRegistryYAML_empty_placeholder_line_witness :
  "traefik" <> "nginx" /\
  exists out,
    buildRegistryYAML "registry.example.com" "a@b.com" "traefik" "default"
      "200m" false false = Ok out /\
    Contains
      ("    kubernetes.io/ingress.class: " ++ "traefik" ++ LF ++
       LF ++ "spec:" ++ LF) out = true.
Proof.
  split; [discriminate|].
  apply buildRegistryYAML_empty_placeholder_line. discriminate.
Defined.

(** ** Counting a pattern in the manifest *)

Lemma countNodes_extensions (d : RegInputData) (p : string) :
  Template.countNodes (RegInputData_field d) p extensionsNodes =
  countText p extensionsNodes +
  2 * Str.count p (Namespace d) + 3 * Str.count p (IssuerType d) +
  2 * Str.count p (IngressClass d) + Str.count p (NginxMaxBuffer d) +
  2 * Str.count p (IngressDomain d) + Str.count p (CertmanagerEmail d) +
  Str.count p (IssuerAPI d).
Proof. unfold extensionsNodes. cbn -[Str.count Nat.mul]. lia. Qed.

Lemma countNodes_extensions_domain (d : RegInputData) (p : string) :
  Template.countNodes (RegInputData_field d) p extensionsNodes =
  2 * Str.count p (IngressDomain d) +
  Template.countNodes (RegInputData_field d) p
    (filter (fun n => negb (isDomainNode n)) extensionsNodes).
Proof. unfold extensionsNodes. cbn -[Str.count Nat.mul]. lia. Qed.

Lemma manifest_countNodes (p : string)
    (domain email ingressClass namespace maxSize : string) (staging : bool) :
  p <> "" -> Str.avoids Template.isSpace p = true ->
  Str.count p (manifest domain email ingressClass namespace maxSize staging) =
  Template.countNodes
    (RegInputData_field
       (inputDataOf domain email ingressClass namespace maxSize staging))
    p extensionsNodes.
Proof.
  intros Hne Hav. unfold manifest.
  apply (TemplateFacts.count_render _ Template.isSpace);
    auto using extensions_separated.
Qed.

(** Where a pattern without blanks can occur in the manifest. *)
Lemma manifest_count (p : string)
    (domain email ingressClass namespace maxSize : string) (staging : bool) :
  p <> "" -> Str.avoids Template.isSpace p = true ->
  Str.count p (manifest domain email ingressClass namespace maxSize staging) =
  countText p extensionsNodes +
  2 * Str.count p namespace +
  3 * Str.count p (if staging then "letsencrypt-staging-issuer"
                   else "letsencrypt-prod-issuer") +
  2 * Str.count p ingressClass +
  (if ingressClass =? "nginx"
   then Str.count p "    nginx.ingress.kubernetes.io/proxy-body-size: " +
        Str.count p maxSize
   else 0) +
  2 * Str.count p domain + Str.count p email +
  Str.count p
    (if staging then "https://acme-staging-v02.api.letsencrypt.org/directory"
     else "https://acme-v02.api.letsencrypt.org/directory").
Proof.
  intros Hne Hav.
  rewrite manifest_countNodes, countNodes_extensions by assumption.
  destruct (inputDataOf_fields domain email ingressClass namespace maxSize
              staging) as (Hd & He & Hc & Hn & Hi & Ha & Hb).
  rewrite Hd, He, Hc, Hn, Hi, Ha, Hb.
  destruct (ingressClass =? "nginx").
  - rewrite (StrFacts.count_app_guarded Template.isSpace); auto.
  - now rewrite (StrFacts.count_nil p Hne).
Qed.

Lemma issuer_node_printed :
  In (Template.FieldNode "IssuerType") extensionsNodes /\
  In (Template.FieldNode "IssuerAPI") extensionsNodes.
Proof.
  unfold extensionsNodes.
  split; repeat (try (left; reflexivity); right).
Qed.

(** ** The builder: issuer, annotation, domain *)

(** C2, as stated, fails: with a namespace that spells out the staging
    issuer and its URL, the production manifest holds both pairs. *)
Example buildRegistryYAML_both_issuer_pairs :
  exists out,
    buildRegistryYAML "registry.example.com" "a@b.com" "nginx"
      "letsencrypt-staging-issuer https://acme-staging-v02.api.letsencrypt.org/directory"
      "200m" false false = Ok out /\
    Contains "letsencrypt-prod-issuer" out = true /\
    Contains "https://acme-v02.api.letsencrypt.org/directory" out = true /\
    Contains "letsencrypt-staging-issuer" out = true /\
    Contains "https://acme-staging-v02.api.letsencrypt.org/directory" out
      = true.
Proof. eexists. split; [reflexivity|]. vm_compute. auto. Qed.

(** C2, amended: the output holds the issuer name and the ACME directory
    URL that the staging flag selects; it does not hold the issuer name of
    the other pair (so never both pairs) when none of the five strings of
    the caller holds that name. *)
Theorem buildRegistryYAML_issuer_pair
    (domain email ingressClass namespace maxSize : string)
    (staging hasNetworking : bool) :
  exists out,
    buildRegistryYAML domain email ingressClass namespace maxSize
      staging hasNetworking = Ok out /\
    Contains (if staging then "letsencrypt-staging-issuer"
              else "letsencrypt-prod-issuer") out = true /\
    Contains
      (if staging
       then "https://acme-staging-v02.api.letsencrypt.org/directory"
       else "https://acme-v02.api.letsencrypt.org/directory") out = true /\
    ((forall u, In u [domain; email; ingressClass; namespace; maxSize] ->
                Str.contains (if staging then "letsencrypt-prod-issuer"
                              else "letsencrypt-staging-issuer") u = false) ->
     Contains (if staging then "letsencrypt-prod-issuer"
               else "letsencrypt-staging-issuer") out = false).
Proof.
  rewrite buildRegistryYAML_manifest. eexists. split; [reflexivity|].
  rewrite !Contains_manifest.
  destruct (inputDataOf_fields domain email ingressClass namespace maxSize
              staging) as (_ & _ & _ & _ & Hi & Ha & _).
  destruct issuer_node_printed as [HinI HinA].
  split; [|split].
  - apply StrFacts.contains_Substring. rewrite <- Hi.
    exact (manifest_value _ _ _ _ _ _ _ HinI).
  - apply StrFacts.contains_Substring. rewrite <- Ha.
    exact (manifest_value _ _ _ _ _ _ _ HinA).
  - intros Hu. apply StrFacts.contains_false.
    assert (Hd := Hu domain). assert (He := Hu email).
    assert (Hc := Hu ingressClass). assert (Hn := Hu namespace).
    assert (Hm := Hu maxSize). clear Hu.
    rewrite StrFacts.contains_false in Hd, He, Hc, Hn, Hm.
    rewrite manifest_count
      by (destruct staging; first [discriminate | reflexivity]).
    rewrite Hd, He, Hc, Hn, Hm by (simpl; tauto).
    destruct staging; destruct (ingressClass =? "nginx"); reflexivity.
Qed.

Lemma buildRegistryYAML_issuer_pair_witness :
  exists out,
    buildRegistryYAML "registry.example.com" "a@b.com" "nginx" "default"
      "200m" false true = Ok out /\
    Contains "letsencrypt-staging-issuer" out = false.
Proof.
  destruct (buildRegistryYAML_issuer_pair "registry.example.com" "a@b.com"
              "nginx" "default" "200m" false true)
    as (out & Hout & _ & _ & Hother).
  exists out. split; [exact Hout|]. apply Hother.
  intros u Hu. simpl in Hu.
  repeat (destruct Hu as [<- | Hu]; [reflexivity|]). destruct Hu.
Defined.

(** C3, as stated, fails: an ingress class other than "nginx" can carry
    the annotation itself into the output. *)
Example buildRegistryYAML_annotation_without_nginx :
  let ingressClass :=
    "traefik" ++ LF ++ "    nginx.ingress.kubernetes.io/proxy-body-size: 8m" in
  ingressClass <> "nginx" /\
  exists out,
    buildRegistryYAML "registry.example.com" "a@b.com" ingressClass "default"
      "200m" false false = Ok out /\
    Contains "nginx.ingress.kubernetes.io/proxy-body-size" out = true.
Proof.
  split; [discriminate|].
  eexists. split; [reflexivity|]. vm_compute. reflexivity.
Qed.

(** C3, amended: with the ingress class "nginx" the output has the
    annotation line, made of the key and the max-size string; with any
    other ingress class the key is absent from the output when none of
    domain, email, ingress class and namespace holds it. *)
Theorem buildRegistryYAML_proxy_body_size
    (domain email ingressClass namespace maxSize : string)
    (staging hasNetworking : bool) :
  exists out,
    buildRegistryYAML domain email ingressClass namespace maxSize
      staging hasNetworking = Ok out /\
    (ingressClass = "nginx" ->
     Contains
       (LF ++ "    nginx.ingress.kubernetes.io/proxy-body-size: " ++
        maxSize ++ LF) out = true) /\
    (ingressClass <> "nginx" ->
     (forall u, In u [domain; email; ingressClass; namespace] ->
                Str.contains "nginx.ingress.kubernetes.io/proxy-body-size" u
                = false) ->
     Contains "nginx.ingress.kubernetes.io/proxy-body-size" out = false).
Proof.
  rewrite buildRegistryYAML_manifest. eexists. split; [reflexivity|].
  rewrite !Contains_manifest. split.
  - intros Hc. apply String.eqb_eq in Hc. apply StrFacts.contains_Substring.
    eapply TemplateFacts.Substring_trans; [|apply (manifest_segment 6 3)].
    destruct (inputDataOf_fields domain email ingressClass namespace maxSize
                staging) as (_ & _ & _ & _ & _ & _ & Hbuf).
    set (data := inputDataOf _ _ _ _ _ _) in *.
    cbn. rewrite Hbuf, Hc.
    exists "", ("spec:" ++ LF ++ "  rules:" ++ LF ++ "  - host: ").
    unfold LF. cbn. rewrite !StrFacts.app_assoc. reflexivity.
  - intros Hc Hu. apply String.eqb_neq in Hc. apply StrFacts.contains_false.
    assert (Hd := Hu domain). assert (He := Hu email).
    assert (Hcl := Hu ingressClass). assert (Hn := Hu namespace). clear Hu.
    rewrite StrFacts.contains_false in Hd, He, Hcl, Hn.
    rewrite manifest_count by first [discriminate | reflexivity].
    rewrite Hd, He, Hcl, Hn, Hc by (simpl; tauto).
    destruct staging; reflexivity.
Qed.

Lemma buildRegistryYAML_proxy_body_size_witness :
  (exists out,
     buildRegistryYAML "registry.example.com" "a@b.com" "nginx" "default"
       "200m" false true = Ok out /\
     Contains
       (LF ++ "    nginx.ingress.kubernetes.io/proxy-body-size: " ++
        "200m" ++ LF) out = true) /\
  (exists out,
     buildRegistryYAML "registry.example.com" "a@b.com" "traefik" "default"
       "200m" false true = Ok out /\
     Contains "nginx.ingress.kubernetes.io/proxy-body-size" out = false).
Proof.
  split.
  - destruct (buildRegistryYAML_proxy_body_size "registry.example.com"
                "a@b.com" "nginx" "default" "200m" false true)
      as (out & Hout & Hnginx & _).
    exists out. split; [exact Hout|]. apply Hnginx. reflexivity.
  - destruct (buildRegistryYAML_proxy_body_size "registry.example.com"
                "a@b.com" "traefik" "default" "200m" false true)
      as (out & Hout & _ & Hother).
    exists out. split; [exact Hout|]. apply Hother; [discriminate|].
    intros u Hu. simpl in Hu.
    repeat (destruct Hu as [<- | Hu]; [reflexivity|]). destruct Hu.
Defined.

(** C6, as stated, fails: an email at the registry's own domain puts the
    domain into the output a third time. *)
Example buildRegistryYAML_domain_three_times :
  exists out,
    buildRegistryYAML "registry.example.com" "admin@registry.example.com"
      "nginx" "default" "200m" false false = Ok out /\
    Occurrences "registry.example.com" out = 3.
Proof. eexists. split; [reflexivity|]. vm_compute. reflexivity. Qed.

(** C6, amended: for a non-empty domain without blanks that occurs
    neither in the template's text nor in another printed field, the
    output holds the domain in exactly two places: the rule host and the
    TLS hosts entry. *)
Theorem buildRegistryYAML_domain_twice
    (domain email ingressClass namespace maxSize : string)
    (staging hasNetworking : bool) :
  domain <> "" -> Str.avoids Template.isSpace domain = true ->
  elsewhere domain email ingressClass namespace maxSize staging = 0 ->
  exists out,
    buildRegistryYAML domain email ingressClass namespace maxSize
      staging hasNetworking = Ok out /\
    Occurrences domain out = 2 /\
    Contains ("  rules:" ++ LF ++ "  - host: " ++ domain ++ LF) out = true /\
    Contains ("  tls:" ++ LF ++ "  - hosts:" ++ LF ++ "    - " ++ domain ++ LF)
      out = true.
Proof.
  intros Hne Hav Helse.
  rewrite buildRegistryYAML_manifest. eexists. split; [reflexivity|].
  unfold Occurrences. rewrite !Contains_manifest.
  rewrite string_of_list_byte_of_string.
  destruct (inputDataOf_fields domain email ingressClass namespace maxSize
              staging) as (Hd & _).
  split; [|split].
  - rewrite manifest_countNodes, countNodes_extensions_domain by assumption.
    fold (elsewhere domain email ingressClass namespace maxSize staging).
    rewrite Helse, Hd, (StrFacts.count_self domain Hne). reflexivity.
  - apply StrFacts.contains_Substring.
    eapply TemplateFacts.Substring_trans; [|apply (manifest_segment 8 3)].
    set (data := inputDataOf _ _ _ _ _ _) in *.
    cbn. rewrite Hd.
    exists (LF ++ "spec:" ++ LF),
           ("    http:" ++ LF ++ "      paths:" ++ LF ++
            "      - backend:" ++ LF ++
            "          serviceName: docker-registry" ++ LF ++
            "          servicePort: 5000" ++ LF ++
            "        path: /" ++ LF ++ "  tls:" ++ LF ++ "  - hosts:" ++ LF ++
            "    - ").
    unfold LF. cbn. rewrite !StrFacts.app_assoc. reflexivity.
  - apply StrFacts.contains_Substring.
    eapply TemplateFacts.Substring_trans; [|apply (manifest_segment 10 3)].
    set (data := inputDataOf _ _ _ _ _ _) in *.
    cbn. rewrite Hd.
    exists (LF ++ "    http:" ++ LF ++ "      paths:" ++ LF ++
            "      - backend:" ++ LF ++
            "          serviceName: docker-registry" ++ LF ++
            "          servicePort: 5000" ++ LF ++
            "        path: /" ++ LF),
           ("    secretName: docker-registry" ++ LF ++ "---" ++ LF ++
            "apiVersion: cert-manager.io/v1" ++ LF ++ "kind: Issuer" ++ LF ++
            "metadata:" ++ LF ++ "  name: ").
    unfold LF. cbn. rewrite !StrFacts.app_assoc. reflexivity.
Qed.

Lemma buildRegistryYAML_domain_twice_witness :
  "registry.example.com" <> "" /\
  Str.avoids Template.isSpace "registry.example.com" = true /\
  elsewhere "registry.example.com" "a@b.com" "nginx" "default" "200m" false
    = 0 /\
  exists out,
    buildRegistryYAML "registry.example.com" "a@b.com" "nginx" "default"
      "200m" false true = Ok out /\
    Occurrences "registry.example.com" out = 2 /\
    Contains ("  rules:" ++ LF ++ "  - host: " ++ "registry.example.com" ++ LF)
      out = true /\
    Contains
      ("  tls:" ++ LF ++ "  - hosts:" ++ LF ++ "    - " ++
       "registry.example.com" ++ LF) out = true.
Proof.
  split; [discriminate|]. split; [reflexivity|]. split; [reflexivity|].
  apply buildRegistryYAML_domain_twice;
    [discriminate | reflexivity | reflexivity].
Defined.

(** ** The templates: the bare [service] keyword *)

(** C7, as stated, fails: the legacy (extensions/v1beta1) template has no
    bare [service] line; no line of it opens a block without a colon. *)
Example extensions_template_has_no_bare_service :
  existsb isBareService (Str.lines registryIngressExtensionsYamlTemplate)
  = false /\
  colonlessOpeners (Str.lines registryIngressExtensionsYamlTemplate) = [].
Proof. vm_compute. auto. Qed.

(** C7, amended: it is the networking.k8s.io/v1 template whose backend
    block has the bare [service] keyword, with no colon, before the more
    deeply indented name and port fields; the backend block of the legacy
    template is [serviceName] and [servicePort], each with its colon. *)
Theorem networking_template_has_bare_service :
  colonlessOpeners (Str.lines registryIngressNetworkingYamlTemplate)
  = ["          service"] /\
  Str.contains
    ("        backend:" ++ LF ++ "          service" ++ LF ++
     "            name: docker-registry" ++ LF ++ "            port:" ++ LF ++
     "              number: 5000" ++ LF)
    registryIngressNetworkingYamlTemplate = true /\
  colonlessOpeners (Str.lines registryIngressExtensionsYamlTemplate) = [] /\
  Str.contains
    ("      - backend:" ++ LF ++ "          serviceName: docker-registry" ++
     LF ++ "          servicePort: 5000" ++ LF)
    registryIngressExtensionsYamlTemplate = true.
Proof. vm_compute. auto. Qed.

(** ** The command: the flag checks *)

(** C5, as stated, fails: [SetKubeconfig] is called before the flags are
    checked, and when it fails the command returns its error, which is
    not a validation error, although the email flag is empty. *)
Example RunE_kubeconfig_error_comes_first :
  flag_email flagsWithoutEmail = "" /\
  exists e,
    fst (RunE failingKubeconfig flagsWithoutEmail []) = Some e /\
    isValidationError e = false.
Proof. split; [reflexivity|]. eexists. split; reflexivity. Qed.

(** C5, amended: if the email, domain or ingress-class flag is empty,
    the command returns an error after the one call of [SetKubeconfig],
    before capability detection, rendering, the temporary file and the
    apply call; the error is a validation error when [SetKubeconfig]
    succeeded, and the error of [SetKubeconfig] otherwise. *)
Theorem RunE_checks_flags_first (c : Collaborators) (flags : Flags) :
  flag_email flags = "" \/ flag_domain flags = "" \/
  flag_ingress_class flags = "" ->
  exists e,
    RunE c flags [] = (Some e, [Call_SetKubeconfig (flag_kubeconfig flags)]) /\
    (SetKubeconfig c (flag_kubeconfig flags) = None ->
     isValidationError e = true) /\
    (forall err, SetKubeconfig c (flag_kubeconfig flags) = Some err ->
                 e = err).
Proof.
  intros Hempty. unfold RunE, call, returns. cbv zeta.
  destruct (SetKubeconfig c (flag_kubeconfig flags)) as [err|].
  - exists err. split; [reflexivity|]. split; [discriminate|].
    intros err' [= ->]. reflexivity.
  - destruct ((flag_email flags =? "") || (flag_domain flags =? "")) eqn:Hed.
    + eexists. split; [reflexivity|]. split; [reflexivity | discriminate].
    + apply orb_false_elim in Hed as [He Hd].
      apply String.eqb_neq in He, Hd.
      destruct Hempty as [H | [H | H]]; try contradiction.
      rewrite H. eexists. split; [reflexivity|].
      split; [reflexivity | discriminate].
Qed.

Lemma RunE_checks_flags_first_witness :
  (flag_email flagsWithoutEmail = "" \/ flag_domain flagsWithoutEmail = "" \/
   flag_ingress_class flagsWithoutEmail = "") /\
  exists e,
    RunE workingCollaborators flagsWithoutEmail [] =
    (Some e, [Call_SetKubeconfig ""]) /\
    isValidationError e = true.
Proof.
  split; [left; reflexivity|].
  destruct (RunE_checks_flags_first workingCollaborators flagsWithoutEmail)
    as (e & Hrun & Hvalid & _); [left; reflexivity|].
  exists e. split; [exact Hrun | apply Hvalid; reflexivity].
Defined.

(** ** The command: the whole run *)

(** The outcomes of [RunE], one goal for each [return] of the source. *)
Ltac run_cases c flags :=
  unfold RunE, call, returns; cbv zeta;
  destruct (SetKubeconfig c (flag_kubeconfig flags)) as [kerr|] eqn:Hkube;
  [| destruct ((flag_email flags =? "") || (flag_domain flags =? "")) eqn:Hed;
     [| destruct (flag_ingress_class flags =? "") eqn:Hcl;
        [| destruct (GetCapabilities c) as [caps_|cerr] eqn:Hcaps;
           [ rewrite buildRegistryYAML_manifest; cbv beta iota;
             fold (manifestOf flags);
             destruct (writeTempFile c (manifestOf flags)
                         "temp_registry_ingress.yaml")
               as [tempFile_|werr] eqn:Hwrite;
             [ destruct (KubectlTask c ["apply"; "-f"; tempFile_])
                 as [res_|aerr] eqn:Hkubectl;
               [ destruct (negb (ExitCode res_ =? 0)%Z) eqn:Hexit | ] | ] | ]]]];
  simpl app.

(** Brings the results of one collaborator, met twice, together. *)
Ltac same_results :=
  repeat match goal with
  | H : Ok _ = Ok _ |- _ => injection H as H; subst
  | H : Ok _ = Err _ |- _ => discriminate H
  | H : Err _ = Ok _ |- _ => discriminate H
  | H : Some _ = None |- _ => discriminate H
  | H : true = false |- _ => discriminate H
  | H1 : ?f = Ok _, H2 : ?f = _ |- _ => rewrite H1 in H2
  end.

Lemma flags_checked (flags : Flags) :
  flag_email flags <> "" -> flag_domain flags <> "" ->
  flag_ingress_class flags <> "" ->
  (flag_email flags =? "") || (flag_domain flags =? "") = false /\
  (flag_ingress_class flags =? "") = false.
Proof.
  intros He Hd Hc. apply String.eqb_neq in He, Hd, Hc.
  now rewrite He, Hd, Hc.
Qed.

(** X1: when the flags are set and every collaborator succeeds, the run
    returns [nil] after exactly six calls, in this order: SetKubeconfig,
    GetCapabilities, buildRegistryYAML, writeTempFile with the manifest of
    the flags, [kubectl apply -f] on the file just written, and the
    banner. *)
Theorem RunE_success (c : Collaborators) (flags : Flags)
    (caps : list (string * bool)) (tempFile : string) (res : ExecResult) :
  SetKubeconfig c (flag_kubeconfig flags) = None ->
  flag_email flags <> "" -> flag_domain flags <> "" ->
  flag_ingress_class flags <> "" ->
  GetCapabilities c = Ok caps ->
  writeTempFile c (manifestOf flags) "temp_registry_ingress.yaml"
    = Ok tempFile ->
  KubectlTask c ["apply"; "-f"; tempFile] = Ok res ->
  ExitCode res = 0%Z ->
  RunE c flags [] =
  (None,
   [Call_SetKubeconfig (flag_kubeconfig flags);
    Call_GetCapabilities;
    Call_buildRegistryYAML (flag_domain flags) (flag_email flags)
      (flag_ingress_class flags) (flag_namespace flags)
      (flag_max_size flags) (flag_staging flags)
      (mapIndex caps "networking.k8s.io/v1");
    Call_writeTempFile (manifestOf flags) "temp_registry_ingress.yaml";
    Call_KubectlTask ["apply"; "-f"; tempFile];
    Call_fmt_Println (RegistryIngressInstallMsg c)]).
Proof.
  intros Hk He Hd Hc Hg Hw Ha Hx.
  destruct (flags_checked flags He Hd Hc) as [Hed' Hcl'].
  run_cases c flags; same_results; try reflexivity.
  rewrite Hx in Hexit. discriminate.
Qed.

Lemma RunE_success_witness :
  exists tr,
    RunE workingCollaborators
      (flagsOf "" "registry.example.com" "a@b.com") [] = (None, tr) /\
    List.length tr = 6.
Proof.
  eexists. split.
  - apply (RunE_success workingCollaborators
             (flagsOf "" "registry.example.com" "a@b.com")
             [("networking.k8s.io/v1", true)]
             "/tmp/temp_registry_ingress.yaml"
             {| ExitCode := 0; Stdout := ""; Stderr := "" |});
      first [reflexivity | discriminate].
  - reflexivity.
Defined.

(** X2: when the apply exits with a non-zero code, the run returns an
    error whose text ends with the standard error of the apply, and the
    banner is not printed. *)
Theorem RunE_apply_exit_code (c : Collaborators) (flags : Flags)
    (caps : list (string * bool)) (tempFile : string) (res : ExecResult) :
  SetKubeconfig c (flag_kubeconfig flags) = None ->
  flag_email flags <> "" -> flag_domain flags <> "" ->
  flag_ingress_class flags <> "" ->
  GetCapabilities c = Ok caps ->
  writeTempFile c (manifestOf flags) "temp_registry_ingress.yaml"
    = Ok tempFile ->
  KubectlTask c ["apply"; "-f"; tempFile] = Ok res ->
  ExitCode res <> 0%Z ->
  fst (RunE c flags []) = Some (applyFailed res) /\
  List.length (snd (RunE c flags [])) = 5 /\
  ~ In (Call_fmt_Println (RegistryIngressInstallMsg c))
       (snd (RunE c flags [])).
Proof.
  intros Hk He Hd Hc Hg Hw Ha Hx.
  destruct (flags_checked flags He Hd Hc) as [Hed' Hcl'].
  run_cases c flags; same_results.
  - split; [reflexivity|]. split; [reflexivity|].
    simpl. intros H. repeat (destruct H as [H|H]; try discriminate H).
    exact H.
  - apply negb_false_iff, Z.eqb_eq in Hexit. contradiction.
Qed.

Lemma RunE_apply_exit_code_witness :
  fst (RunE failingApply (flagsOf "" "registry.example.com" "a@b.com") [])
  = Some (applyFailed
            {| ExitCode := 1; Stdout := "";
               Stderr := "error: no matches for kind Issuer" |}).
Proof.
  apply (RunE_apply_exit_code failingApply
           (flagsOf "" "registry.example.com" "a@b.com")
           [("networking.k8s.io/v1", true)]
           "/tmp/temp_registry_ingress.yaml");
    first [reflexivity | discriminate].
Defined.

(** X3: the run returns [nil] exactly when it has printed the banner. *)
Theorem RunE_nil_iff_banner (c : Collaborators) (flags : Flags) :
  fst (RunE c flags []) = None <->
  In (Call_fmt_Println (RegistryIngressInstallMsg c)) (snd (RunE c flags [])).
Proof.
  run_cases c flags; simpl fst; simpl snd.
  all: split; intros H; try discriminate; try reflexivity.
  all: try (simpl in H;
            repeat (destruct H as [H|H]; try discriminate H);
            try contradiction).
  all: simpl; auto 10.
Qed.

(** X4: in every run the stages are called in the order of the source,
    each at most once and none skipped, with at most one printing call,
    at the end. *)
Theorem RunE_stage_order (c : Collaborators) (flags : Flags) :
  exists n,
    n <= 5 /\
    (map stage (snd (RunE c flags [])) = seq 0 n \/
     map stage (snd (RunE c flags [])) = (seq 0 n ++ [5])%list).
Proof.
  run_cases c flags; simpl snd; simpl map.
  - exists 1. split; [lia | left; reflexivity].
  - exists 1. split; [lia | left; reflexivity].
  - exists 1. split; [lia | left; reflexivity].
  - exists 5. split; [lia | left; reflexivity].
  - exists 5. split; [lia | right; reflexivity].
  - exists 5. split; [lia | right; reflexivity].
  - exists 4. split; [lia | right; reflexivity].
  - exists 2. split; [lia | left; reflexivity].
Qed.



(** X6: a run that calls the builder always goes on to write the
    builder's output to the temporary file: the builder returns the
    manifest, and the return for a template error is never taken. *)
Theorem RunE_builder_never_stops_the_run (c : Collaborators) (flags : Flags)
    (domain email ingressClass namespace maxSize : string)
    (staging hasNetworking : bool) :
  In (Call_buildRegistryYAML domain email ingressClass namespace maxSize
        staging hasNetworking) (snd (RunE c flags [])) ->
  buildRegistryYAML domain email ingressClass namespace maxSize
    staging hasNetworking = Ok (manifestOf flags) /\
  In (Call_writeTempFile (manifestOf flags) "temp_registry_ingress.yaml")
     (snd (RunE c flags [])).
Proof.
  run_cases c flags; simpl snd; intros H; simpl in H.
  all: repeat (destruct H as [H|H]; try discriminate H); try contradiction.
  all: injection H as <- <- <- <- <- <- <-.
  all: split; [apply buildRegistryYAML_manifest | simpl; auto 10].
Qed.

Lemma RunE_builder_never_stops_the_run_witness :
  In (Call_writeTempFile
        (manifestOf (flagsOf "" "registry.example.com" "a@b.com"))
        "temp_registry_ingress.yaml")
     (snd (RunE failingApply
             (flagsOf "" "registry.example.com" "a@b.com") [])).
Proof.
  apply (RunE_builder_never_stops_the_run failingApply
           (flagsOf "" "registry.example.com" "a@b.com")
           "registry.example.com" "a@b.com" "nginx" "default" "200m"
           false true).
  vm_compute. auto 10.
Defined.

(** X7: every error the run returns is accounted for: it is the error of
    SetKubeconfig, one of the two validation errors, the error of
    GetCapabilities, of writeTempFile, or of the apply, or the error made
    from a non-zero exit code of the apply. *)
Theorem RunE_error_origin (c : Collaborators) (flags : Flags) (e : error) :
  fst (RunE c flags []) = Some e ->
  SetKubeconfig c (flag_kubeconfig flags) = Some e \/
  isValidationError e = true \/
  GetCapabilities c = Err e \/
  writeTempFile c (manifestOf flags) "temp_registry_ingress.yaml" = Err e \/
  (exists tempFile,
     KubectlTask c ["apply"; "-f"; tempFile] = Err e) \/
  (exists tempFile res,
     KubectlTask c ["apply"; "-f"; tempFile] = Ok res /\
     ExitCode res <> 0%Z /\ e = applyFailed res).
Proof.
  run_cases c flags; simpl fst; intros H; try discriminate H;
    injection H as <-.
  - left. reflexivity.
  - right. left. reflexivity.
  - right. left. reflexivity.
  - do 5 right. exists tempFile_, res_. split; [exact Hkubectl|].
    split; [|reflexivity].
    apply negb_true_iff, Z.eqb_neq in Hexit. exact Hexit.
  - do 4 right. left. exists tempFile_. exact Hkubectl.
  - do 3 right. left. reflexivity.
  - do 2 right. left. reflexivity.
Qed.

Lemma RunE_error_origin_witness :
  exists tempFile res,
    KubectlTask failingApply ["apply"; "-f"; tempFile] = Ok res /\
    ExitCode res <> 0%Z.
Proof.
  destruct (RunE_error_origin failingApply
              (flagsOf "" "registry.example.com" "a@b.com")
              (applyFailed
                 {| ExitCode := 1; Stdout := "";
                    Stderr := "error: no matches for kind Issuer" |}))
    as [H | [H | [H | [H | [(t & H) | (t & r & Hk & Hx & _)]]]]];
    try discriminate H.
  - reflexivity.
  - exists t, r. split; assumption.
Defined.

(** X8: the capabilities of the cluster change nothing: on two clusters
    that differ only in their capability map, the run returns the same
    error or [nil], writes the same file and applies it the same way. *)
Theorem RunE_capabilities_unused (c : Collaborators) (flags : Flags)
    (caps caps' : list (string * bool)) :
  fst (RunE (withCapabilities c caps) flags []) =
  fst (RunE (withCapabilities c caps') flags []) /\
  filter (fun x => 3 <=? stage x)%nat
    (snd (RunE (withCapabilities c caps) flags [])) =
  filter (fun x => 3 <=? stage x)%nat
    (snd (RunE (withCapabilities c caps') flags [])).
Proof.
  unfold RunE, call, returns, withCapabilities. cbv zeta.
  cbn [SetKubeconfig GetCapabilities writeTempFile KubectlTask
       ThanksForUsing].
  destruct (SetKubeconfig c (flag_kubeconfig flags));
    [split; reflexivity|].
  destruct ((flag_email flags =? "") || (flag_domain flags =? ""));
    [split; reflexivity|].
  destruct (flag_ingress_class flags =? ""); [split; reflexivity|].
  rewrite !buildRegistryYAML_manifest. cbv beta iota.
  destruct (writeTempFile c _ _) as [tempFile|werr];
    [|split; reflexivity].
  destruct (KubectlTask c _) as [res|aerr]; [|split; reflexivity].
  destruct (negb (ExitCode res =? 0)%Z); split; reflexivity.
Qed.

(** X9: with only [--domain] and [--email] given, the file that the run
    writes is the manifest for ingress class nginx with a 200m body
    size, in namespace default, with the production issuer. *)
Theorem RunE_default_flags (c : Collaborators)
    (kubeconfig domain email : string) (caps : list (string * bool)) :
  SetKubeconfig c kubeconfig = None ->
  domain <> "" -> email <> "" ->
  GetCapabilities c = Ok caps ->
  exists bytes,
    In (Call_writeTempFile bytes "temp_registry_ingress.yaml")
       (snd (RunE c (flagsOf kubeconfig domain email) [])) /\
    Contains ("  name: docker-registry" ++ LF ++ "  namespace: default" ++ LF)
      bytes = true /\
    Contains
      ("    cert-manager.io/issuer: letsencrypt-prod-issuer" ++ LF ++
       "    kubernetes.io/ingress.class: nginx" ++ LF ++
       "    nginx.ingress.kubernetes.io/proxy-body-size: 200m" ++ LF)
      bytes = true /\
    Contains
      ("    server: https://acme-v02.api.letsencrypt.org/directory" ++ LF)
      bytes = true.
Proof.
  intros Hk Hd He Hg.
  exists (manifestOf (flagsOf kubeconfig domain email)). split.
  - destruct (flags_checked (flagsOf kubeconfig domain email))
      as [Hed' Hcl']; [exact He | exact Hd | discriminate |].
    pose proof (Hk : SetKubeconfig c
                       (flag_kubeconfig (flagsOf kubeconfig domain email))
                     = None) as Hk'.
    run_cases c (flagsOf kubeconfig domain email); same_results;
      simpl; auto 10.
  - unfold manifestOf. rewrite !Contains_manifest.
    cbn [flagsOf flag_domain flag_email flag_ingress_class flag_namespace
         flag_max_size flag_staging].
    split; [|split]; apply StrFacts.contains_Substring.
    + eapply TemplateFacts.Substring_trans; [|apply (manifest_segment 0 3)].
      exists (LF ++ "apiVersion: extensions/v1beta1" ++ LF ++
              "kind: Ingress" ++ LF ++ "metadata:" ++ LF),
             ("  annotations:" ++ LF ++ "    cert-manager.io/issuer: ").
      reflexivity.
    + eapply TemplateFacts.Substring_trans; [|apply (manifest_segment 2 7)].
      exists (LF ++ "  annotations:" ++ LF),
             ("spec:" ++ LF ++ "  rules:" ++ LF ++ "  - host: ").
      reflexivity.
    + eapply TemplateFacts.Substring_trans; [|apply (manifest_segment 18 3)].
      exists LF, ("    privateKeySecretRef:" ++ LF ++ "      name: ").
      reflexivity.
Qed.

Lemma RunE_default_flags_witness :
  exists bytes,
    In (Call_writeTempFile bytes "temp_registry_ingress.yaml")
       (snd (RunE workingCollaborators
               (flagsOf "" "registry.example.com" "a@b.com") [])) /\
    Contains ("  name: docker-registry" ++ LF ++ "  namespace: default" ++ LF)
      bytes = true.
Proof.
  destruct (RunE_default_flags workingCollaborators ""
              "registry.example.com" "a@b.com"
              [("networking.k8s.io/v1", true)])
    as (bytes & Hin & Hns & _);
    [reflexivity | discriminate | discriminate | reflexivity |].
  exists bytes. split; assumption.
Defined.

(** ** The builder: how the manifest hangs together *)

(** A pattern occurs in the manifest when it occurs in what the nodes
    [i .. i+k-1] of the template print. *)
Ltac in_segment i k :=
  apply StrFacts.contains_Substring;
  eapply TemplateFacts.Substring_trans; [|apply (manifest_segment i k)].

Ltac split_at pre post :=
  exists pre, post; unfold LF;
  repeat (progress cbn || rewrite StrFacts.app_assoc); reflexivity.

Lemma app_inv_head (a x y : string) : a ++ x = a ++ y -> x = y.
Proof.
  induction a as [|c a IH]; simpl; intros H; [exact H|].
  injection H as H. auto.
Qed.

Lemma manifest_split (k : nat)
    (domain email ingressClass namespace maxSize : string) (staging : bool) :
  manifest domain email ingressClass namespace maxSize staging =
  Template.render
    (RegInputData_field
       (inputDataOf domain email ingressClass namespace maxSize staging))
    (firstn k extensionsNodes) ++
  Template.render
    (RegInputData_field
       (inputDataOf domain email ingressClass namespace maxSize staging))
    (skipn k extensionsNodes).
Proof.
  unfold manifest. now rewrite <- TemplateFacts.render_app, firstn_skipn.
Qed.

(** X10: the Ingress and the Issuer are wired together: the
    cert-manager.io/issuer annotation of the Ingress, the name of the
    Issuer and the name of its private key secret are the same issuer
    name, the one that the staging flag selects. *)
Theorem buildRegistryYAML_issuer_wiring
    (domain email ingressClass namespace maxSize : string)
    (staging hasNetworking : bool) :
  let issuer := if staging then "letsencrypt-staging-issuer"
                else "letsencrypt-prod-issuer" in
  exists out,
    buildRegistryYAML domain email ingressClass namespace maxSize
      staging hasNetworking = Ok out /\
    Contains ("  annotations:" ++ LF ++ "    cert-manager.io/issuer: " ++
              issuer ++ LF) out = true /\
    Contains ("kind: Issuer" ++ LF ++ "metadata:" ++ LF ++ "  name: " ++
              issuer ++ LF) out = true /\
    Contains ("    privateKeySecretRef:" ++ LF ++ "      name: " ++
              issuer ++ LF) out = true.
Proof.
  intros issuer. rewrite buildRegistryYAML_manifest.
  eexists. split; [reflexivity|]. rewrite !Contains_manifest.
  destruct (inputDataOf_fields domain email ingressClass namespace maxSize
              staging) as (_ & _ & _ & _ & Hi & _).
  fold issuer in Hi.
  split; [|split].
  - in_segment 2 3. set (data := inputDataOf _ _ _ _ _ _) in *.
    cbn. rewrite Hi.
    split_at LF "    kubernetes.io/ingress.class: ".
  - in_segment 12 3. set (data := inputDataOf _ _ _ _ _ _) in *.
    cbn. rewrite Hi.
    split_at (LF ++ "    secretName: docker-registry" ++ LF ++ "---" ++ LF ++
              "apiVersion: cert-manager.io/v1" ++ LF)
             "  namespace: ".
  - in_segment 20 3. set (data := inputDataOf _ _ _ _ _ _) in *.
    cbn. rewrite Hi.
    split_at LF ("    solvers:" ++ LF ++ "    - http01:" ++ LF ++
                 "        ingress:" ++ LF ++ "          class: ").
Qed.

(** X11: the issuer name is in the output exactly three times (the
    annotation, the Issuer's name, the private key secret) when none of
    the five strings of the caller holds it. *)
Theorem buildRegistryYAML_issuer_three_times
    (domain email ingressClass namespace maxSize : string)
    (staging hasNetworking : bool) :
  let issuer := if staging then "letsencrypt-staging-issuer"
                else "letsencrypt-prod-issuer" in
  (forall u, In u [domain; email; ingressClass; namespace; maxSize] ->
             Str.contains issuer u = false) ->
  exists out,
    buildRegistryYAML domain email ingressClass namespace maxSize
      staging hasNetworking = Ok out /\
    Occurrences issuer out = 3.
Proof.
  intros issuer Hu. rewrite buildRegistryYAML_manifest.
  eexists. split; [reflexivity|].
  unfold Occurrences. rewrite string_of_list_byte_of_string.
  assert (Hd := Hu domain). assert (He := Hu email).
  assert (Hc := Hu ingressClass). assert (Hn := Hu namespace).
  assert (Hm := Hu maxSize). clear Hu.
  rewrite StrFacts.contains_false in Hd, He, Hc, Hn, Hm.
  rewrite manifest_count
    by (subst issuer; destruct staging; first [discriminate | reflexivity]).
  rewrite Hd, He, Hc, Hn, Hm by (simpl; tauto).
  subst issuer.
  destruct staging; destruct (ingressClass =? "nginx"); reflexivity.
Qed.

Lemma buildRegistryYAML_issuer_three_times_witness :
  exists out,
    buildRegistryYAML "registry.example.com" "a@b.com" "nginx" "default"
      "200m" true false = Ok out /\
    Occurrences "letsencrypt-staging-issuer" out = 3.
Proof.
  apply (buildRegistryYAML_issuer_three_times "registry.example.com"
           "a@b.com" "nginx" "default" "200m" true false).
  intros u Hu. simpl in Hu.
  repeat (destruct Hu as [<- | Hu]; [reflexivity|]). destruct Hu.
Defined.

(** X12: every placeholder is filled in: the output has no opening
    action delimiter unless one of the five strings of the caller brings
    it. *)
Theorem buildRegistryYAML_no_placeholder_left
    (domain email ingressClass namespace maxSize : string)
    (staging hasNetworking : bool) :
  (forall u, In u [domain; email; ingressClass; namespace; maxSize] ->
             Str.contains "{{" u = false) ->
  exists out,
    buildRegistryYAML domain email ingressClass namespace maxSize
      staging hasNetworking = Ok out /\
    Contains "{{" out = false.
Proof.
  intros Hu. rewrite buildRegistryYAML_manifest.
  eexists. split; [reflexivity|].
  rewrite Contains_manifest. apply StrFacts.contains_false.
  assert (Hd := Hu domain). assert (He := Hu email).
  assert (Hc := Hu ingressClass). assert (Hn := Hu namespace).
  assert (Hm := Hu maxSize). clear Hu.
  rewrite StrFacts.contains_false in Hd, He, Hc, Hn, Hm.
  rewrite manifest_count by first [discriminate | reflexivity].
  rewrite Hd, He, Hc, Hn, Hm by (simpl; tauto).
  destruct staging; destruct (ingressClass =? "nginx"); reflexivity.
Qed.

Lemma buildRegistryYAML_no_placeholder_left_witness :
  exists out,
    buildRegistryYAML "registry.example.com" "a@b.com" "nginx" "default"
      "200m" false false = Ok out /\
    Contains "{{" out = false.
Proof.
  apply buildRegistryYAML_no_placeholder_left.
  intros u Hu. simpl in Hu.
  repeat (destruct Hu as [<- | Hu]; [reflexivity|]). destruct Hu.
Defined.

(** X13: the ingress class is used twice, for the class annotation of
    the Ingress and for the HTTP-01 solver of the Issuer, and the output
    ends with it, with no line feed after it. *)
Theorem buildRegistryYAML_solver_class
    (domain email ingressClass namespace maxSize : string)
    (staging hasNetworking : bool) :
  exists out pre,
    buildRegistryYAML domain email ingressClass namespace maxSize
      staging hasNetworking = Ok out /\
    Contains ("    kubernetes.io/ingress.class: " ++ ingressClass ++ LF) out
      = true /\
    string_of_list_byte out =
    pre ++ "    solvers:" ++ LF ++ "    - http01:" ++ LF ++
    "        ingress:" ++ LF ++ "          class: " ++ ingressClass.
Proof.
  rewrite buildRegistryYAML_manifest.
  destruct (inputDataOf_fields domain email ingressClass namespace maxSize
              staging) as (_ & _ & Hc & _).
  eexists.
  exists (Template.render
            (RegInputData_field
               (inputDataOf domain email ingressClass namespace maxSize
                  staging))
            (firstn 22 extensionsNodes) ++ LF).
  split; [reflexivity|].
  rewrite Contains_manifest, string_of_list_byte_of_string. split.
  - in_segment 4 3. set (data := inputDataOf _ _ _ _ _ _) in *.
    cbn. rewrite Hc. split_at LF "".
  - rewrite (manifest_split 22).
    set (data := inputDataOf _ _ _ _ _ _) in *.
    set (head := Template.render _ (firstn 22 extensionsNodes)).
    clearbody head. cbn. rewrite Hc, StrFacts.app_nil_r. unfold LF.
    rewrite StrFacts.app_assoc. reflexivity.
Qed.

(** X14: the Ingress and the Issuer are in the same namespace, the one
    of the caller, and the Issuer's ACME account is the email of the
    caller at the directory that the staging flag selects. *)
Theorem buildRegistryYAML_namespace_and_account
    (domain email ingressClass namespace maxSize : string)
    (staging hasNetworking : bool) :
  exists out,
    buildRegistryYAML domain email ingressClass namespace maxSize
      staging hasNetworking = Ok out /\
    Contains ("kind: Ingress" ++ LF ++ "metadata:" ++ LF ++
              "  name: docker-registry" ++ LF ++
              "  namespace: " ++ namespace ++ LF) out = true /\
    Contains
      ("  namespace: " ++ namespace ++ LF ++ "spec:" ++ LF ++ "  acme:" ++ LF ++
       "    email: " ++ email ++ LF ++ "    server: " ++
       (if staging
        then "https://acme-staging-v02.api.letsencrypt.org/directory"
        else "https://acme-v02.api.letsencrypt.org/directory") ++ LF)
      out = true.
Proof.
  rewrite buildRegistryYAML_manifest.
  eexists. split; [reflexivity|]. rewrite !Contains_manifest.
  destruct (inputDataOf_fields domain email ingressClass namespace maxSize
              staging) as (_ & He & _ & Hn & _ & Ha & _).
  split.
  - in_segment 0 3. set (data := inputDataOf _ _ _ _ _ _) in *.
    cbn. rewrite Hn.
    split_at (LF ++ "apiVersion: extensions/v1beta1" ++ LF)
             ("  annotations:" ++ LF ++ "    cert-manager.io/issuer: ").
  - in_segment 14 7. set (data := inputDataOf _ _ _ _ _ _) in *.
    cbn. rewrite Hn, He, Ha.
    split_at LF ("    privateKeySecretRef:" ++ LF ++ "      name: ").
Qed.

(** X15: the staging flag always shows: with all strings equal, the
    staging manifest and the production manifest start alike, part at the
    issuer annotation, and so are never equal. *)
Theorem buildRegistryYAML_staging_differs
    (domain email ingressClass namespace maxSize : string)
    (hasNetworking hasNetworking' : bool) :
  exists outS outP pre restS restP,
    buildRegistryYAML domain email ingressClass namespace maxSize
      true hasNetworking = Ok outS /\
    buildRegistryYAML domain email ingressClass namespace maxSize
      false hasNetworking' = Ok outP /\
    string_of_list_byte outS = pre ++ "letsencrypt-staging-issuer" ++ restS /\
    string_of_list_byte outP = pre ++ "letsencrypt-prod-issuer" ++ restP /\
    outS <> outP.
Proof.
  rewrite !buildRegistryYAML_manifest.
  destruct (inputDataOf_fields domain email ingressClass namespace maxSize
              true) as (_ & _ & _ & Hn & Hi & _).
  destruct (inputDataOf_fields domain email ingressClass namespace maxSize
              false) as (_ & _ & _ & Hn' & Hi' & _).
  assert (HS :
    manifest domain email ingressClass namespace maxSize true =
    Template.render
      (RegInputData_field
         (inputDataOf domain email ingressClass namespace maxSize false))
      (firstn 3 extensionsNodes) ++
    "letsencrypt-staging-issuer" ++
    Template.render
      (RegInputData_field
         (inputDataOf domain email ingressClass namespace maxSize true))
      (skipn 4 extensionsNodes)).
  { rewrite (manifest_split 3), <- Hi.
    set (dataS := inputDataOf _ _ _ _ _ true) in *.
    set (dataP := inputDataOf _ _ _ _ _ false) in *.
    clearbody dataS dataP. f_equal. cbn. now rewrite Hn, Hn'. }
  assert (HP :
    manifest domain email ingressClass namespace maxSize false =
    Template.render
      (RegInputData_field
         (inputDataOf domain email ingressClass namespace maxSize false))
      (firstn 3 extensionsNodes) ++
    "letsencrypt-prod-issuer" ++
    Template.render
      (RegInputData_field
         (inputDataOf domain email ingressClass namespace maxSize false))
      (skipn 4 extensionsNodes)).
  { rewrite (manifest_split 3), <- Hi'. reflexivity. }
  do 5 eexists. split; [reflexivity|]. split; [reflexivity|].
  rewrite !string_of_list_byte_of_string.
  split; [exact HS|]. split; [exact HP|].
  intros H. apply (f_equal string_of_list_byte) in H.
  rewrite !string_of_list_byte_of_string, HS, HP in H.
  apply app_inv_head in H. discriminate H.
Qed.

(** X16: the builder does not check its input: with an empty domain and
    an empty email it still returns a manifest, whose host and email
    values are empty. *)
Theorem buildRegistryYAML_does_not_validate
    (ingressClass namespace maxSize : string)
    (staging hasNetworking : bool) :
  exists out,
    buildRegistryYAML "" "" ingressClass namespace maxSize
      staging hasNetworking = Ok out /\
    Contains ("  - host: " ++ LF ++ "    http:" ++ LF) out = true /\
    Contains ("    - " ++ LF ++ "    secretName: docker-registry" ++ LF) out
      = true /\
    Contains ("    email: " ++ LF ++ "    server: ") out = true.
Proof.
  rewrite buildRegistryYAML_manifest.
  eexists. split; [reflexivity|]. rewrite !Contains_manifest.
  destruct (inputDataOf_fields "" "" ingressClass namespace maxSize
              staging) as (Hd & He & _).
  split; [|split].
  - in_segment 8 3. set (data := inputDataOf _ _ _ _ _ _) in *.
    cbn. rewrite Hd.
    split_at (LF ++ "spec:" ++ LF ++ "  rules:" ++ LF)
             ("      paths:" ++ LF ++ "      - backend:" ++ LF ++
              "          serviceName: docker-registry" ++ LF ++
              "          servicePort: 5000" ++ LF ++ "        path: /" ++ LF ++
              "  tls:" ++ LF ++ "  - hosts:" ++ LF ++ "    - ").
  - in_segment 10 3. set (data := inputDataOf _ _ _ _ _ _) in *.
    cbn. rewrite Hd.
    split_at (LF ++ "    http:" ++ LF ++ "      paths:" ++ LF ++
              "      - backend:" ++ LF ++
              "          serviceName: docker-registry" ++ LF ++
              "          servicePort: 5000" ++ LF ++ "        path: /" ++ LF ++
              "  tls:" ++ LF ++ "  - hosts:" ++ LF)
             ("---" ++ LF ++ "apiVersion: cert-manager.io/v1" ++ LF ++
              "kind: Issuer" ++ LF ++ "metadata:" ++ LF ++ "  name: ").
  - in_segment 16 3. set (data := inputDataOf _ _ _ _ _ _) in *.
    cbn. rewrite He.
    split_at (LF ++ "spec:" ++ LF ++ "  acme:" ++ LF) "".
Qed.

(** ** The networking.k8s.io/v1 template *)

(** X17: the networking.k8s.io/v1 template is a well-formed template
    over the same fields, in the same order, as the legacy one: on every
    data it parses and executes without error, and what it prints has
    the networking API group, the path type, and the bare [service]
    line. *)
Theorem networking_template_executes (d : RegInputData) :
  exists ns text,
    Template.Parse "yaml" registryIngressNetworkingYamlTemplate = Ok ns /\
    Template.Execute (RegInputData_field d) ns "" = Ok text /\
    fieldsOf ns = fieldsOf extensionsNodes /\
    Str.contains ("apiVersion: networking.k8s.io/v1" ++ LF) text = true /\
    Str.contains
      ("        pathType: ImplementationSpecific" ++ LF ++
       "        backend:" ++ LF ++ "          service" ++ LF) text = true.
Proof.
  exists networkingNodes,
         (Template.render (RegInputData_field d) networkingNodes).
  split; [vm_compute; reflexivity|].
  split.
  - rewrite TemplateFacts.Execute_render by (vm_compute; reflexivity).
    reflexivity.
  - split; [vm_compute; reflexivity|].
    split; apply StrFacts.contains_Substring.
    + eapply TemplateFacts.Substring_trans;
        [|apply (TemplateFacts.render_segment _ 0 1)].
      apply StrFacts.contains_Substring. vm_compute. reflexivity.
    + eapply TemplateFacts.Substring_trans;
        [|apply (TemplateFacts.render_segment _ 10 1)].
      apply StrFacts.contains_Substring. vm_compute. reflexivity.
Qed.
